(** * EntityDetails: dispatch behaviour of the entity-details component

    A shallow embedding of
    [frontend/src/modules/entitydetails/components/EntityDetails.js].

    The component is a React class whose methods read [this.props] and call
    [dispatch] on values built by action creators of other modules.  The
    embedding keeps that shape:

    - props are a record, with the nullable ones ([selectedEntity], [locale],
      [nextEntity], ...) carried as JavaScript values that may be [undefined]
      or [null];
    - entities are objects: they carry an address, and [===] on them compares
      addresses, not contents;
    - [dispatch] appends to a log of dispatched actions; an action is the
      action-creator call with its arguments, the creators themselves living
      in other modules;
    - reading a property of [undefined] or [null] throws, so a method returns
      a log together with either a value or a [TypeError]. *)

From Stdlib Require Import ZArith List Bool String Lia.
From Stdlib Require Import DecimalString DecimalPos DecimalZ.
Import ListNotations.
Local Open Scope string_scope.
Local Open Scope list_scope.
Local Open Scope Z_scope.

Local Set Warnings "-register-all".

Set Implicit Arguments.

(** ** The JavaScript values the component handles *)

Module JS.

(** A value that may be [undefined], [null] or a proper value of [A]. *)
Inductive Nullable (A : Type) : Type :=
| undefined : Nullable A
| null : Nullable A
| val : A -> Nullable A.
Arguments undefined {A}.
Arguments null {A}.
Arguments val {A} _.

(** An object: its address in the heap and its fields.  Two objects are the
    same object exactly when their addresses agree. *)
Record Obj (A : Type) : Type := mkObj { addr : positive; fields : A }.

(** [!x] for a nullable object: only [undefined] and [null] are falsy. *)
Definition truthy {A : Type} (x : Nullable A) : bool :=
  match x with
  | val _ => true
  | _ => false
  end.

(** Truthiness of a number: every number but zero.  The numbers of this
    component are entity keys and plural indices, hence integers. *)
Definition truthy_num (n : Z) : bool := negb (n =? 0).

(** [a === b], given the comparison of proper values. *)
Definition strict_eq {A : Type} (eqb : A -> A -> bool)
           (a b : Nullable A) : bool :=
  match a, b with
  | undefined, undefined => true
  | null, null => true
  | val x, val y => eqb x y
  | _, _ => false
  end.

(** [===] on numbers (possibly [null] or [undefined]). *)
Definition num_eq : Nullable Z -> Nullable Z -> bool := strict_eq Z.eqb.

(** [===] on objects: reference equality. *)
Definition same_obj {A : Type} : Nullable (Obj A) -> Nullable (Obj A) -> bool :=
  strict_eq (fun x y => Pos.eqb (addr x) (addr y)).

(** A lookup that found nothing reads [undefined]. *)
Definition of_option {A : Type} (x : option A) : Nullable A :=
  match x with
  | Some a => val a
  | None => undefined
  end.

(** [a[i]]: an index outside the array reads [undefined]. *)
Definition array_get {A : Type} (a : list A) (i : Z) : Nullable A :=
  if i <? 0 then undefined
  else of_option (nth_error a (Z.to_nat i)).

(** [a.length] and [s.length]. *)
Definition array_length {A : Type} (a : list A) : Z := Z.of_nat (List.length a).
Definition string_length (s : string) : Z := Z.of_nat (String.length s).

(** [n.toString()] for an integer (entity keys: plain decimal digits). *)
Definition Number_toString (n : Z) : string :=
  NilZero.string_of_int (Z.to_int n).

End JS.

Import JS.

(** ** Results and the dispatch log *)

Inductive Exception : Type :=
| TypeError : Exception.

Inductive Result (A : Type) : Type :=
| Ok : A -> Result A
| Throw : Exception -> Result A.
Arguments Ok {A} _.
Arguments Throw {A} _.

(** ** What the component takes from other modules

    Types declared in [core/*] and [modules/*] of which the component only
    passes values along, and the one helper it calls. *)

Class Collaborators : Type := {
  Router : Type;
  Locale : Type;
  EditorState : Type;
  UserState : Type;
  UnsavedChangesState : Type;
  ChangeOperation : Type;
  (** [utils.getOptimizedContent(source, format)] of [core/utils]. *)
  getOptimizedContent : string -> string -> string
}.

(** ** Data model

    Each record sits in a module of its own so that fields keep the names
    they have in the source ([Entity.pk], [HistoryState.entity], ...). *)

Module EntityTranslation.
(** Modelled from the spec: the [EntityTranslation] type of [core/api], which
    this file imports; a translation record "with approval/fuzzy flags and
    associated error/warning lists", under the field names the component
    reads. *)
Record t : Type := mk {
  approved : bool;
  fuzzy : bool;
  errors : list string;
  warnings : list string
}.
End EntityTranslation.

Module Entity.
(** Modelled from the spec: the [Entity] type of [core/api]; "a primary key,
    an original (source) string, a display format tag, and a per-plural-form
    list of translation records", under the field names the component reads
    ([machinery_original] is the source string handed to machinery). *)
Record t : Type := mk {
  pk : Z;
  original : string;
  machinery_original : string;
  format : string;
  translation : list EntityTranslation.t
}.
End Entity.

(** An entity prop: [undefined], [null] or a reference to an entity. *)
Definition EntityRef : Type := Nullable (Obj Entity.t).

Module NavigationParams.
(** Modelled from the spec: the [NavigationParams] type of
    [core/navigation]; "the currently addressed locale, project, resource,
    and entity identifiers", the entity a number that is zero when the
    location names none. *)
Record t : Type := mk {
  locale : string;
  project : string;
  resource : string;
  entity : Z
}.
End NavigationParams.

Module HistoryState.
(** Modelled from the spec: the [HistoryState] type of [modules/history],
    reduced to the "recorded entity" and "recorded plural form" that the
    component compares against; either may still be [null]. *)
Record t : Type := mk {
  entity : Nullable Z;
  pluralForm : Nullable Z
}.
End HistoryState.

Module LocalesState.
(** Modelled from the spec: the [LocalesState] type of
    [modules/otherlocales], reduced to its recorded entity. *)
Record t : Type := mk { entity : Nullable Z }.
End LocalesState.

Module MachineryState.
(** Modelled from the spec: the [MachineryState] type of
    [modules/machinery], reduced to its recorded entity. *)
Record t : Type := mk { entity : Nullable Z }.
End MachineryState.

Module FailedChecks.
(** The object literal that [updateFailedChecks] builds for
    [editor.actions.updateFailedChecks]. *)
Record t : Type := mk {
  clErrors : list string;
  clWarnings : list string;
  pErrors : list string;
  pndbWarnings : list string;
  ttWarnings : list string
}.
End FailedChecks.

Section Component.

Context `{Collaborators}.

Record Props : Type := mkProps {
  activeTranslationString : string;
  editor : EditorState;
  history : HistoryState.t;
  isReadOnlyEditor : bool;
  isTranslator : bool;
  locale : Nullable Locale;
  machinery : MachineryState.t;
  nextEntity : EntityRef;
  previousEntity : EntityRef;
  otherlocales : LocalesState.t;
  parameters : NavigationParams.t;
  pluralForm : Z;
  router : Router;
  selectedEntity : EntityRef;
  unsavedchanges : UnsavedChangesState;
  user : UserState
}.

(** An action is the call of an action creator; [UnsavedchangesCheck]
    carries the callback it was given, a thunk that dispatches in turn. *)
Inductive Action : Type :=
| HistoryRequest (entity pluralForm : Z)
| HistoryGet (entity : Z) (locale : string) (pluralForm : Z)
| HistoryDeleteTranslation (entity : Z) (locale : string)
                           (pluralForm translationId : Z)
| HistoryAddComment (entity : Z) (locale : string)
                    (pluralForm translationId : Z) (comment : string)
| HistoryUpdateStatus (change : ChangeOperation) (entity : EntityRef)
                      (locale : Nullable Locale) (resource : string)
                      (pluralForm translationId : Z)
                      (nextEntity : EntityRef) (router : Router)
| OtherlocalesGet (entity : Z) (locale : string)
| MachineryGet (source : string) (locale : Nullable Locale)
               (pk : Nullable Z)
| EditorUpdateFailedChecks (failedChecks : FailedChecks.t) (source : string)
| EditorResetFailedChecks
| EditorUpdate (translation changeSource : string)
| EditorUpdateSelection (content : string)
| NavigationUpdateEntity (router : Router) (entity : string)
| RouterPush (path : string)
| LightboxOpen (image : string)
| UnsavedchangesCheck (state : UnsavedChangesState)
                      (callback : unit -> list Action * Result unit).

(** A method run: the actions it dispatched, in order, and how it ended. *)
Definition M (A : Type) : Type := (list Action * Result A)%type.

Definition ret {A : Type} (a : A) : M A := ([], Ok a).

Definition bind {A B : Type} (m : M A) (k : A -> M B) : M B :=
  match m with
  | (l, Ok a) => let (l', r) := k a in (l ++ l', r)
  | (l, Throw e) => (l, Throw e)
  end.

Definition dispatch (a : Action) : M unit := ([a], Ok tt).

Definition throw {A : Type} (e : Exception) : M A := ([], Throw e).

(** Reading a property: [x.f] throws when [x] is [undefined] or [null].
    [deref] is for object references, [unwrap] for plain values. *)
Definition unwrap {A : Type} (x : Nullable A) : M A :=
  match x with
  | val a => ret a
  | _ => throw TypeError
  end.

Definition deref {A : Type} (x : Nullable (Obj A)) : M A :=
  match x with
  | val o => ret (fields o)
  | _ => throw TypeError
  end.

(** [if (c) { body }] without an [else]. *)
Definition when (c : bool) (body : M unit) : M unit :=
  if c then body else ret tt.

(** [x && p(x)] as a condition. *)
Definition and_then {A : Type} (x : Nullable A) (p : A -> bool) : bool :=
  match x with
  | val a => p a
  | _ => false
  end.

Definition dispatched {A : Type} (m : M A) : list Action := fst m.
Definition outcome {A : Type} (m : M A) : Result A := snd m.

End Component.

Declare Scope dispatch_scope.
Delimit Scope dispatch_scope with dispatch.
Notation "x <- m ;; k" := (bind m (fun x => k))
  (at level 61, m at next level, right associativity) : dispatch_scope.
Notation "' pat <- m ;; k" := (bind m (fun x => match x with pat => k end))
  (at level 61, pat pattern, m at next level, right associativity)
  : dispatch_scope.
Notation "m ;; k" := (bind m (fun _ => k))
  (at level 61, right associativity) : dispatch_scope.
Local Open Scope dispatch_scope.

(** ** The methods of [EntityDetailsBase] *)

Section Methods.

Context `{Collaborators}.

Definition updateFailedChecks (props : Props) : M unit :=
  if negb (truthy (selectedEntity props)) then ret tt
  else
    entity <- deref (selectedEntity props) ;;
    let plural := if pluralForm props =? -1 then 0 else pluralForm props in
    let translation := array_get (Entity.translation entity) plural in
    (* Only show failed checks for active translations that are approved
       or fuzzy. *)
    if and_then translation (fun t =>
         (truthy_num (array_length (EntityTranslation.errors t))
          || truthy_num (array_length (EntityTranslation.warnings t)))
         && (EntityTranslation.approved t || EntityTranslation.fuzzy t))
    then
      t <- unwrap translation ;;
      let failedChecks :=
        {| FailedChecks.clErrors := EntityTranslation.errors t;
           FailedChecks.clWarnings := EntityTranslation.warnings t;
           FailedChecks.pErrors := [];
           FailedChecks.pndbWarnings := [];
           FailedChecks.ttWarnings := [] |} in
      dispatch (EditorUpdateFailedChecks failedChecks "stored")
    else
      dispatch EditorResetFailedChecks.

(* Only fetch helpers data if the entity changes.
   Also fetch history data if the pluralForm changes. *)
Definition fetchHelpersData (props : Props) : M unit :=
  if negb (truthy_num (NavigationParams.entity (parameters props)))
     || negb (truthy (selectedEntity props))
     || negb (truthy (locale props))
  then ret tt
  else
    entity <- deref (selectedEntity props) ;;
    when (negb (num_eq (val (Entity.pk entity))
                       (HistoryState.entity (history props)))
          || negb (num_eq (val (pluralForm props))
                          (HistoryState.pluralForm (history props)))
          || same_obj (selectedEntity props) (nextEntity props))
      (dispatch (HistoryRequest (NavigationParams.entity (parameters props))
                                (pluralForm props)) ;;
       dispatch (HistoryGet (NavigationParams.entity (parameters props))
                            (NavigationParams.locale (parameters props))
                            (pluralForm props))) ;;
    when (negb (num_eq (val (Entity.pk entity))
                       (LocalesState.entity (otherlocales props))))
      (dispatch (OtherlocalesGet
                   (NavigationParams.entity (parameters props))
                   (NavigationParams.locale (parameters props)))) ;;
    when (negb (num_eq (val (Entity.pk entity))
                       (MachineryState.entity (machinery props))))
      (let source := getOptimizedContent (Entity.machinery_original entity)
                                         (Entity.format entity) in
       dispatch (MachineryGet source (locale props)
                              (val (Entity.pk entity)))).

Definition componentDidMount (props : Props) : M unit :=
  updateFailedChecks props ;;
  fetchHelpersData props.

Definition componentDidUpdate (props prevProps : Props) : M unit :=
  when (negb (pluralForm props =? pluralForm prevProps)
        || negb (same_obj (selectedEntity props) (selectedEntity prevProps))
        || (same_obj (selectedEntity props) (nextEntity props)
            && negb (String.eqb (activeTranslationString props)
                                (activeTranslationString prevProps))))
    (updateFailedChecks props ;;
     fetchHelpersData props).

Definition searchMachinery (props : Props) (query : string) : M unit :=
  let source := query in
  let pk : Nullable Z := null in
  (* On empty query, use source string as input *)
  '(source, pk) <-
    (if truthy (selectedEntity props)
        && negb (truthy_num (string_length query))
     then
       entity <- deref (selectedEntity props) ;;
       ret (Entity.original entity, val (Entity.pk entity))
     else ret (source, pk)) ;;
  dispatch (MachineryGet source (locale props) pk).

Definition goToNextEntity (props : Props) : M unit :=
  dispatch
    (UnsavedchangesCheck (unsavedchanges props)
       (fun _ =>
          next <- deref (nextEntity props) ;;
          dispatch (NavigationUpdateEntity
                      (router props)
                      (Number_toString (Entity.pk next))))).

Definition goToPreviousEntity (props : Props) : M unit :=
  dispatch
    (UnsavedchangesCheck (unsavedchanges props)
       (fun _ =>
          previous <- deref (previousEntity props) ;;
          dispatch (NavigationUpdateEntity
                      (router props)
                      (Number_toString (Entity.pk previous))))).

Definition navigateToPath (props : Props) (path : string) : M unit :=
  dispatch
    (UnsavedchangesCheck (unsavedchanges props)
       (fun _ => dispatch (RouterPush path))).

Definition openLightbox (props : Props) (image : string) : M unit :=
  dispatch (LightboxOpen image).

Definition updateEditorTranslation (props : Props)
           (translation changeSource : string) : M unit :=
  dispatch (EditorUpdate translation changeSource).

Definition addTextToEditorTranslation (props : Props)
           (content : string) : M unit :=
  dispatch (EditorUpdateSelection content).

Definition deleteTranslation (props : Props) (translationId : Z) : M unit :=
  dispatch (HistoryDeleteTranslation
              (NavigationParams.entity (parameters props))
              (NavigationParams.locale (parameters props))
              (pluralForm props)
              translationId).

Definition addComment (props : Props) (comment : string)
           (translationId : Z) : M unit :=
  dispatch (HistoryAddComment
              (NavigationParams.entity (parameters props))
              (NavigationParams.locale (parameters props))
              (pluralForm props)
              translationId
              comment).

Definition updateTranslationStatus (props : Props) (translationId : Z)
           (change : ChangeOperation) : M unit :=
  dispatch
    (UnsavedchangesCheck (unsavedchanges props)
       (fun _ =>
          dispatch (HistoryUpdateStatus
                      change
                      (selectedEntity props)
                      (locale props)
                      (NavigationParams.resource (parameters props))
                      (pluralForm props)
                      translationId
                      (nextEntity props)
                      (router props)))).

End Methods.

(** ** Vocabulary for the statements *)

Section Observations.

Context `{Collaborators}.

(** A nullable prop that holds no value. *)
Definition absent {A : Type} (x : Nullable A) : Prop :=
  x = undefined \/ x = null.

(** The actions of each helper fetch. *)
Definition isHistoryFetch (a : Action) : bool :=
  match a with
  | HistoryRequest _ _ | HistoryGet _ _ _ => true
  | _ => false
  end.

Definition isOtherlocalesFetch (a : Action) : bool :=
  match a with
  | OtherlocalesGet _ _ => true
  | _ => false
  end.

Definition isMachineryFetch (a : Action) : bool :=
  match a with
  | MachineryGet _ _ _ => true
  | _ => false
  end.

(** The updates that the unsaved-changes check stands guard over. *)
Definition isGuardedUpdate (a : Action) : bool :=
  match a with
  | NavigationUpdateEntity _ _ | RouterPush _
  | HistoryUpdateStatus _ _ _ _ _ _ _ _ => true
  | _ => false
  end.

(** The translation record of the active plural form. *)
Definition activeTranslation (props : Props) (entity : Entity.t)
  : Nullable EntityTranslation.t :=
  array_get (Entity.translation entity)
            (if pluralForm props =? -1 then 0 else pluralForm props).

(** A record whose checks are shown: approved or fuzzy, and with at least
    one error or warning. *)
Definition publishable (t : EntityTranslation.t) : Prop :=
  (EntityTranslation.approved t = true \/ EntityTranslation.fuzzy t = true)
  /\ (EntityTranslation.errors t <> [] \/ EntityTranslation.warnings t <> []).

(** Publishing the stored errors and warnings of a record. *)
Definition storedChecks (t : EntityTranslation.t) : Action :=
  EditorUpdateFailedChecks
    {| FailedChecks.clErrors := EntityTranslation.errors t;
       FailedChecks.clWarnings := EntityTranslation.warnings t;
       FailedChecks.pErrors := [];
       FailedChecks.pndbWarnings := [];
       FailedChecks.ttWarnings := [] |}
    "stored".

(** What a refresh dispatches for the record it looked up. *)
Definition checksAction (r : Nullable EntityTranslation.t) : Action :=
  match r with
  | val t =>
      if (match EntityTranslation.errors t, EntityTranslation.warnings t with
          | [], [] => false
          | _, _ => true
          end)
         && (EntityTranslation.approved t || EntityTranslation.fuzzy t)
      then storedChecks t
      else EditorResetFailedChecks
  | _ => EditorResetFailedChecks
  end.

(** The refresh rule read without any condition on the selection: a
    publishable active record is published, and every other refresh
    resets. *)
Definition refreshRuleUnconditional (props : Props) : Prop :=
  (forall o t,
      selectedEntity props = val o ->
      activeTranslation props (fields o) = val t ->
      publishable t ->
      dispatched (updateFailedChecks props) = [storedChecks t])
  /\ ((forall o t,
          selectedEntity props = val o ->
          activeTranslation props (fields o) = val t ->
          ~ publishable t) ->
      dispatched (updateFailedChecks props) = [EditorResetFailedChecks]).

(** The condition of [componentDidUpdate], as the prose has it. *)
Definition refreshDue (props prevProps : Props) : Prop :=
  pluralForm props <> pluralForm prevProps
  \/ same_obj (selectedEntity props) (selectedEntity prevProps) = false
  \/ (same_obj (selectedEntity props) (nextEntity props) = true
      /\ activeTranslationString props <> activeTranslationString prevProps).

(** The condition under which history is fetched anew. *)
Definition historyStale (props : Props) (entity : Entity.t) : Prop :=
  HistoryState.entity (history props) <> val (Entity.pk entity)
  \/ HistoryState.pluralForm (history props) <> val (pluralForm props)
  \/ same_obj (selectedEntity props) (nextEntity props) = true.

(** What each of the three conditional fetches of [fetchHelpersData]
    contributes to the log. *)
Definition historyPart (props : Props) (entity : Entity.t) : list Action :=
  if negb (num_eq (val (Entity.pk entity))
                  (HistoryState.entity (history props)))
     || negb (num_eq (val (pluralForm props))
                     (HistoryState.pluralForm (history props)))
     || same_obj (selectedEntity props) (nextEntity props)
  then [HistoryRequest (NavigationParams.entity (parameters props))
                       (pluralForm props);
        HistoryGet (NavigationParams.entity (parameters props))
                   (NavigationParams.locale (parameters props))
                   (pluralForm props)]
  else [].

Definition otherlocalesPart (props : Props) (entity : Entity.t)
  : list Action :=
  if negb (num_eq (val (Entity.pk entity))
                  (LocalesState.entity (otherlocales props)))
  then [OtherlocalesGet (NavigationParams.entity (parameters props))
                        (NavigationParams.locale (parameters props))]
  else [].

Definition machineryPart (props : Props) (entity : Entity.t)
  : list Action :=
  if negb (num_eq (val (Entity.pk entity))
                  (MachineryState.entity (machinery props)))
  then [MachineryGet (getOptimizedContent (Entity.machinery_original entity)
                                          (Entity.format entity))
                     (locale props)
                     (val (Entity.pk entity))]
  else [].

End Observations.

(** ** Sample data *)

Module Samples.

Definition collaborators : Collaborators :=
  {| Router := string;
     Locale := string;
     EditorState := unit;
     UserState := unit;
     UnsavedChangesState := bool;
     ChangeOperation := string;
     getOptimizedContent := fun source _ => source |}.
#[local] Existing Instance collaborators.

(** Fuzzy, one error, no warning. *)
Definition fuzzyOneError : EntityTranslation.t :=
  EntityTranslation.mk false true ["Error1"] [].

(** Neither approved nor fuzzy, but with an error. *)
Definition draftOneError : EntityTranslation.t :=
  EntityTranslation.mk false false ["Error1"] [].

Definition approvedClean : EntityTranslation.t :=
  EntityTranslation.mk true false [] [].

Definition entity1 : Obj Entity.t :=
  mkObj 1 (Entity.mk 42 "le test" "le test" "po"
                     [fuzzyOneError; draftOneError]).

Definition entity2 : Obj Entity.t :=
  mkObj 2 (Entity.mk 43 "something" "something" "po" [approvedClean]).

Definition params : NavigationParams.t :=
  NavigationParams.mk "kg" "firefox" "all-resources" 42.

(** [entity1] selected, [entity2] next, nothing fetched yet. *)
Definition props : Props :=
  {| activeTranslationString := "";
     editor := tt;
     history := HistoryState.mk null null;
     isReadOnlyEditor := false;
     isTranslator := true;
     locale := val "kg";
     machinery := MachineryState.mk null;
     nextEntity := val entity2;
     previousEntity := val entity2;
     otherlocales := LocalesState.mk null;
     parameters := params;
     pluralForm := -1;
     router := "/kg/firefox/all-resources/";
     selectedEntity := val entity1;
     unsavedchanges := true;
     user := tt |}.

Definition withPluralForm (n : Z) (p : Props) : Props :=
  {| activeTranslationString := activeTranslationString p;
     editor := editor p;
     history := history p;
     isReadOnlyEditor := isReadOnlyEditor p;
     isTranslator := isTranslator p;
     locale := locale p;
     machinery := machinery p;
     nextEntity := nextEntity p;
     previousEntity := previousEntity p;
     otherlocales := otherlocales p;
     parameters := parameters p;
     pluralForm := n;
     router := router p;
     selectedEntity := selectedEntity p;
     unsavedchanges := unsavedchanges p;
     user := user p |}.

Definition withSelectedEntity (e : EntityRef) (p : Props) : Props :=
  {| activeTranslationString := activeTranslationString p;
     editor := editor p;
     history := history p;
     isReadOnlyEditor := isReadOnlyEditor p;
     isTranslator := isTranslator p;
     locale := locale p;
     machinery := machinery p;
     nextEntity := nextEntity p;
     previousEntity := previousEntity p;
     otherlocales := otherlocales p;
     parameters := parameters p;
     pluralForm := pluralForm p;
     router := router p;
     selectedEntity := e;
     unsavedchanges := unsavedchanges p;
     user := user p |}.

(** The same props once the reducers have recorded the three fetches. *)
Definition withFreshHelpers (p : Props) : Props :=
  {| activeTranslationString := activeTranslationString p;
     editor := editor p;
     history := HistoryState.mk (val 42) (val (pluralForm p));
     isReadOnlyEditor := negb (isReadOnlyEditor p);
     isTranslator := isTranslator p;
     locale := locale p;
     machinery := MachineryState.mk (val 42);
     nextEntity := nextEntity p;
     previousEntity := previousEntity p;
     otherlocales := LocalesState.mk (val 42);
     parameters := parameters p;
     pluralForm := pluralForm p;
     router := router p;
     selectedEntity := selectedEntity p;
     unsavedchanges := unsavedchanges p;
     user := user p |}.

(** No entity selected. *)
Definition noSelection : Props := withSelectedEntity undefined props.

End Samples.

(** ** The clipboard link and [render] *)

Module Location.
(** [window.location], of which [copyLinkToClipboard] reads two fields. *)
Record t : Type := mk {
  protocol : string;
  host : string
}.
End Location.

(** [notification.messages.STRING_LINK_COPIED], and
    [notification.actions.add] of a message. *)
Inductive NotificationMessage : Type :=
| STRING_LINK_COPIED.

Inductive NotificationAction : Type :=
| NotificationAdd (message : NotificationMessage).

Module ClipboardWrite.
(** [navigator.clipboard.writeText(text).then(onWritten)]: the text handed
    to the clipboard, and what the callback dispatches once the write has
    succeeded. *)
Record t : Type := mk {
  text : string;
  onWritten : unit -> list NotificationAction
}.
End ClipboardWrite.

(** The methods that [render] hands down, as [this.goToNextEntity] and the
    like. *)
Inductive Handler : Type :=
| this_copyLinkToClipboard
| this_goToNextEntity
| this_goToPreviousEntity
| this_openLightbox
| this_addTextToEditorTranslation
| this_navigateToPath
| this_deleteTranslation
| this_addComment
| this_updateTranslationStatus
| this_updateEditorTranslation
| this_searchMachinery.

Section View.

Context `{Collaborators}.


(** The value of a JSX attribute. *)
Inductive PropValue : Type :=
| PString (s : string)
| PBool (b : bool)
| PNumber (n : Z)
| PEntity (e : EntityRef)
| PLocale (l : Nullable Locale)
| PHistory (h : HistoryState.t)
| PMachinery (m : MachineryState.t)
| POtherlocales (o : LocalesState.t)
| PParameters (p : NavigationParams.t)
| PUser (u : UserState)
| PHandler (h : Handler).

(** A React element: its type (a tag or a component), its attributes and
    its children. *)
Inductive Element : Type :=
| Elem (type : string) (attributes : list (string * PropValue))
       (children : list Element).

Definition render (props : Props) : M (Nullable Element) :=
  let state := props in
  if negb (truthy (locale state)) then ret null
  else if negb (truthy (selectedEntity state)) then
    ret (val (Elem "section" [("className", PString "entity-details")] []))
  else
    entity <- deref (selectedEntity state) ;;
    ret (val
      (Elem "section" [("className", PString "entity-details")]
         [Elem "section" [("className", PString "main-column")]
            [Elem "EntityNavigation"
               [("copyLinkToClipboard", PHandler this_copyLinkToClipboard);
                ("goToNextEntity", PHandler this_goToNextEntity);
                ("goToPreviousEntity", PHandler this_goToPreviousEntity)]
               [];
             Elem "Metadata"
               [("entity", PEntity (selectedEntity state));
                ("isReadOnlyEditor", PBool (isReadOnlyEditor state));
                ("locale", PLocale (locale state));
                ("pluralForm", PNumber (pluralForm state));
                ("openLightbox", PHandler this_openLightbox);
                ("addTextToEditorTranslation",
                 PHandler this_addTextToEditorTranslation);
                ("navigateToPath", PHandler this_navigateToPath)]
               [];
             (if String.eqb (Entity.format entity) "ftl"
              then Elem "fluenteditor.Editor" [] []
              else Elem "genericeditor.Editor" [] []);
             Elem "history.History"
               [("entity", PEntity (selectedEntity state));
                ("history", PHistory (history state));
                ("isReadOnlyEditor", PBool (isReadOnlyEditor state));
                ("isTranslator", PBool (isTranslator state));
                ("locale", PLocale (locale state));
                ("user", PUser (user state));
                ("deleteTranslation", PHandler this_deleteTranslation);
                ("addComment", PHandler this_addComment);
                ("updateTranslationStatus",
                 PHandler this_updateTranslationStatus);
                ("updateEditorTranslation",
                 PHandler this_updateEditorTranslation)]
               []];
          Elem "section" [("className", PString "third-column")]
            [Elem "Helpers"
               [("entity", PEntity (selectedEntity state));
                ("isReadOnlyEditor", PBool (isReadOnlyEditor state));
                ("locale", PLocale (locale state));
                ("machinery", PMachinery (machinery state));
                ("otherlocales", POtherlocales (otherlocales state));
                ("parameters", PParameters (parameters state));
                ("user", PUser (user state));
                ("updateEditorTranslation",
                 PHandler this_updateEditorTranslation);
                ("searchMachinery", PHandler this_searchMachinery)]
               []]])).

(** The types of all elements of a tree, root first. *)
Fixpoint elementTypes (e : Element) : list string :=
  match e with
  | Elem type _ children => type :: flat_map elementTypes children
  end.

(** The handlers handed to the elements of a tree. *)
Definition handlersOfAttributes (attributes : list (string * PropValue))
  : list Handler :=
  flat_map (fun a => match snd a with PHandler h => [h] | _ => [] end)
           attributes.

Fixpoint handlers (e : Element) : list Handler :=
  match e with
  | Elem _ attributes children =>
      handlersOfAttributes attributes ++ flat_map handlers children
  end.

(** The action of any of the three helper fetches. *)
Definition isHelperFetch (a : Action) : bool :=
  isHistoryFetch a || isOtherlocalesFetch a || isMachineryFetch a.

(** All three helper slices hold the selected entity, the history slice
    for the current plural form, and the selection is not the entity marked
    as next. *)
Definition helpersFresh (props : Props) (entity : Entity.t) : Prop :=
  HistoryState.entity (history props) = val (Entity.pk entity)
  /\ HistoryState.pluralForm (history props) = val (pluralForm props)
  /\ same_obj (selectedEntity props) (nextEntity props) = false
  /\ LocalesState.entity (otherlocales props) = val (Entity.pk entity)
  /\ MachineryState.entity (machinery props) = val (Entity.pk entity).

End View.

Module MoreSamples.


(** A Fluent entity. *)
Definition fluentEntity : Obj Entity.t :=
  mkObj 3 (Entity.mk 44 "key = Value" "Value" "ftl" []).

(** Another entity, with the translations of [Samples.entity1]. *)
Definition renamedEntity : Obj Entity.t :=
  mkObj 9 (Entity.mk 99 "autre" "autre" "po"
                     [Samples.fuzzyOneError; Samples.draftOneError]).

End MoreSamples.

(** ** Properties *)

(** Every action of one part falls on the same side of a classifier. *)
Ltac classify_part :=
  let a := fresh "a" in
  let K := fresh "K" in
  unfold historyPart, otherlocalesPart, machineryPart;
  intros a K;
  repeat match goal with
         | K : In _ (if ?b then _ else _) |- _ => destruct b
         | K : In _ (_ :: _) |- _ => destruct K as [<- | K]
         | K : In _ [] |- _ => destruct K
         end;
  reflexivity.

Section Properties.

Context `{Collaborators}.

(** *** The JavaScript layer *)

Lemma truthy_num_array_length (A : Type) (a : list A) :
  truthy_num (array_length a) = match a with [] => false | _ => true end.
Proof.
  destruct a as [|x a]; [reflexivity|].
  unfold truthy_num, array_length.
  apply negb_true_iff, Z.eqb_neq. cbn [List.length]. lia.
Qed.

Lemma truthy_num_string_length (s : string) :
  truthy_num (string_length s) = match s with EmptyString => false | _ => true end.
Proof.
  destruct s as [|c s]; [reflexivity|].
  unfold truthy_num, string_length.
  apply negb_true_iff, Z.eqb_neq. cbn [String.length]. lia.
Qed.

Lemma truthy_num_false (n : Z) : truthy_num n = false <-> n = 0.
Proof.
  unfold truthy_num. rewrite negb_false_iff. apply Z.eqb_eq.
Qed.

Lemma truthy_false (A : Type) (x : Nullable A) :
  truthy x = false <-> absent x.
Proof.
  unfold absent. destruct x; cbn; split; intros; auto; try discriminate.
  destruct H0; discriminate.
Qed.

Lemma num_eq_val (n : Z) (x : Nullable Z) :
  num_eq (val n) x = true <-> x = val n.
Proof.
  destruct x as [| |m]; cbn; split; intros E; try discriminate.
  - apply Z.eqb_eq in E. now subst.
  - injection E as ->. apply Z.eqb_refl.
Qed.

Lemma num_neq_val (n : Z) (x : Nullable Z) :
  negb (num_eq (val n) x) = true <-> x <> val n.
Proof.
  rewrite negb_true_iff, <- not_true_iff_false. now rewrite num_eq_val.
Qed.

Lemma array_get_nth_error (A : Type) (a : list A) (i : Z) :
  0 <= i ->
  array_get a i = of_option (nth_error a (Z.to_nat i)).
Proof.
  intros Hi. unfold array_get.
  destruct (Z.ltb_spec i 0); [lia | reflexivity].
Qed.

(** *** [updateFailedChecks] *)

Lemma checksAction_publishable (t : EntityTranslation.t) :
  publishable t -> checksAction (val t) = storedChecks t.
Proof.
  unfold publishable, checksAction.
  destruct t as [a f es ws]; cbn.
  intros [[E | E] [N | N]];
    destruct es, ws, a, f; cbn in *;
    try reflexivity; try discriminate; now elim N.
Qed.

Lemma checksAction_not_publishable (t : EntityTranslation.t) :
  ~ publishable t -> checksAction (val t) = EditorResetFailedChecks.
Proof.
  unfold publishable, checksAction.
  destruct t as [[] [] [|e es] [|w ws]]; cbn; intros N;
    try reflexivity; elim N;
    (split; [auto | (left + right); discriminate]).
Qed.

(** With an entity selected, a refresh dispatches one action, decided by
    the record of the active plural form. *)
Lemma updateFailedChecks_selected (props : Props) (o : Obj Entity.t) :
  selectedEntity props = val o ->
  updateFailedChecks props
  = dispatch (checksAction (activeTranslation props (fields o))).
Proof.
  intros Hsel. unfold updateFailedChecks, activeTranslation.
  rewrite Hsel. cbn [truthy negb deref bind ret app].
  destruct (array_get _ _) as [| |t]; try reflexivity.
  cbn [and_then checksAction]. rewrite !truthy_num_array_length.
  destruct t as [a f es ws]; cbn.
  destruct es, ws, a, f; reflexivity.
Qed.

Lemma updateFailedChecks_unselected (props : Props) :
  absent (selectedEntity props) -> updateFailedChecks props = ret tt.
Proof.
  intros [E | E]; unfold updateFailedChecks; now rewrite E.
Qed.

(** A refresh never throws. *)
Lemma updateFailedChecks_outcome (props : Props) :
  outcome (updateFailedChecks props) = Ok tt.
Proof.
  destruct (selectedEntity props) as [| |o] eqn:E.
  - rewrite updateFailedChecks_unselected by (now left). reflexivity.
  - rewrite updateFailedChecks_unselected by (now right). reflexivity.
  - now rewrite (updateFailedChecks_selected _ E).
Qed.

(** *** [fetchHelpersData] *)

(** Past its guard, the routine dispatches the three parts in order and
    returns. *)
Lemma fetchHelpersData_ready (props : Props) (o : Obj Entity.t) (l : Locale) :
  NavigationParams.entity (parameters props) <> 0 ->
  selectedEntity props = val o ->
  locale props = val l ->
  fetchHelpersData props
  = (historyPart props (fields o)
       ++ otherlocalesPart props (fields o)
       ++ machineryPart props (fields o),
     Ok tt).
Proof.
  intros Hent Hsel Hloc.
  unfold fetchHelpersData, historyPart, otherlocalesPart, machineryPart.
  assert (truthy_num (NavigationParams.entity (parameters props)) = true) as ->.
  { destruct (truthy_num _) eqn:E; [reflexivity|].
    now apply truthy_num_false in E. }
  rewrite Hloc, Hsel. cbn [truthy negb orb deref bind ret].
  destruct (negb (num_eq _ (HistoryState.entity _)) || _ || _);
    destruct (negb (num_eq _ (LocalesState.entity _)));
    destruct (negb (num_eq _ (MachineryState.entity _)));
    reflexivity.
Qed.

Lemma fetchHelpersData_skipped (props : Props) :
  NavigationParams.entity (parameters props) = 0
  \/ absent (selectedEntity props)
  \/ absent (locale props) ->
  fetchHelpersData props = ret tt.
Proof.
  unfold fetchHelpersData.
  intros [E | [E | E]].
  - apply truthy_num_false in E. now rewrite E.
  - apply truthy_false in E. rewrite E. cbn. now rewrite orb_true_r.
  - apply truthy_false in E. rewrite E. cbn. now rewrite !orb_true_r.
Qed.

(** The routine never throws. *)
Lemma fetchHelpersData_outcome (props : Props) :
  outcome (fetchHelpersData props) = Ok tt.
Proof.
  destruct (Z.eq_dec (NavigationParams.entity (parameters props)) 0) as [E|E].
  { rewrite fetchHelpersData_skipped by auto. reflexivity. }
  destruct (selectedEntity props) as [| |o] eqn:Hsel;
    try (rewrite fetchHelpersData_skipped
          by (right; left; rewrite Hsel; unfold absent; auto);
         reflexivity).
  destruct (locale props) as [| |l] eqn:Hloc;
    try (rewrite fetchHelpersData_skipped
          by (right; right; rewrite Hloc; unfold absent; auto);
         reflexivity).
  now rewrite (fetchHelpersData_ready _ E Hsel Hloc).
Qed.

Lemma historyPart_stale (props : Props) (entity : Entity.t) :
  historyStale props entity ->
  historyPart props entity
  = [HistoryRequest (NavigationParams.entity (parameters props))
                    (pluralForm props);
     HistoryGet (NavigationParams.entity (parameters props))
                (NavigationParams.locale (parameters props))
                (pluralForm props)].
Proof.
  unfold historyStale, historyPart. intros St.
  assert (negb (num_eq (val (Entity.pk entity))
                       (HistoryState.entity (history props)))
          || negb (num_eq (val (pluralForm props))
                          (HistoryState.pluralForm (history props)))
          || same_obj (selectedEntity props) (nextEntity props) = true) as ->;
    [|reflexivity].
  rewrite !orb_true_iff, !num_neq_val. tauto.
Qed.

Lemma historyPart_fresh (props : Props) (entity : Entity.t) :
  ~ historyStale props entity -> historyPart props entity = [].
Proof.
  unfold historyStale, historyPart. intros Fr.
  destruct (negb (num_eq (val (Entity.pk entity)) _) || _ || _) eqn:E;
    [|reflexivity].
  rewrite !orb_true_iff, !num_neq_val in E. tauto.
Qed.

Lemma historyStale_dec (props : Props) (entity : Entity.t) :
  {historyStale props entity} + {~ historyStale props entity}.
Proof.
  destruct (historyPart props entity) eqn:E.
  - right. intros St. rewrite (historyPart_stale St) in E. discriminate.
  - left. unfold historyPart in E.
    destruct (negb (num_eq (val (Entity.pk entity)) _) || _ || _) eqn:B;
      [|discriminate].
    rewrite !orb_true_iff, !num_neq_val in B. unfold historyStale. tauto.
Qed.

Lemma filter_parts (f : Action -> bool) (props : Props) (entity : Entity.t)
      (h o m : bool) :
  (forall a, In a (historyPart props entity) -> f a = h) ->
  (forall a, In a (otherlocalesPart props entity) -> f a = o) ->
  (forall a, In a (machineryPart props entity) -> f a = m) ->
  filter f (historyPart props entity
              ++ otherlocalesPart props entity
              ++ machineryPart props entity)
  = (if h then historyPart props entity else [])
      ++ (if o then otherlocalesPart props entity else [])
      ++ (if m then machineryPart props entity else []).
Proof.
  intros Hh Ho Hm. rewrite !filter_app.
  assert (K : forall (b : bool) (l : list Action),
             (forall a, In a l -> f a = b) ->
             filter f l = if b then l else []).
  { intros b l. induction l as [|a l IH]; intros Hl.
    - now destruct b.
    - cbn [filter]. rewrite (Hl a) by (now left).
      rewrite IH by (intros; apply Hl; now right).
      now destruct b. }
  now rewrite (K _ _ Hh), (K _ _ Ho), (K _ _ Hm).
Qed.

(** *** The claims *)

(** C1 (as amended).  With an entity selected, a refresh of the
    failed-checks state dispatches exactly one action and returns: when the
    translation record of the active plural form exists, is approved or
    fuzzy, and has an error or a warning, the action publishes that record's
    errors and warnings, the three other lists empty, tagged ["stored"];
    in every other case the action is the reset, in particular for a record
    with errors that is neither approved nor fuzzy. *)
Theorem updateFailedChecks_publishes_or_resets
        (props : Props) (o : Obj Entity.t) :
  selectedEntity props = val o ->
  (forall t,
      activeTranslation props (fields o) = val t ->
      publishable t ->
      updateFailedChecks props = ([storedChecks t], Ok tt))
  /\ ((forall t,
          activeTranslation props (fields o) = val t ->
          ~ publishable t) ->
      updateFailedChecks props = ([EditorResetFailedChecks], Ok tt)).
Proof.
  intros Hsel. rewrite (updateFailedChecks_selected _ Hsel). split.
  - intros t -> P. now rewrite checksAction_publishable.
  - intros N. destruct (activeTranslation props (fields o)) as [| |t] eqn:E;
      try reflexivity.
    now rewrite checksAction_not_publishable by (now apply N).
Qed.

(** C2.  On mount both routines run: the log is what the failed-checks
    refresh dispatches followed by what the helper fetch dispatches.  On an
    update the same happens when the plural form changed, the selected
    entity changed, or the selected entity is the next entity and the
    active translation string changed; on any other update nothing is
    dispatched. *)
Theorem refresh_on_mount_and_change (props prevProps : Props) :
  componentDidMount props
  = (dispatched (updateFailedChecks props)
       ++ dispatched (fetchHelpersData props), Ok tt)
  /\ (refreshDue props prevProps ->
      componentDidUpdate props prevProps
      = (dispatched (updateFailedChecks props)
           ++ dispatched (fetchHelpersData props), Ok tt))
  /\ (~ refreshDue props prevProps ->
      componentDidUpdate props prevProps = ([], Ok tt)).
Proof.
  assert (Both : (updateFailedChecks props ;; fetchHelpersData props)
                 = (dispatched (updateFailedChecks props)
                      ++ dispatched (fetchHelpersData props), Ok tt)).
  { pose proof (updateFailedChecks_outcome props) as U.
    pose proof (fetchHelpersData_outcome props) as F.
    destruct (updateFailedChecks props) as [lu ru].
    destruct (fetchHelpersData props) as [lf rf].
    cbn in U, F. subst. reflexivity. }
  split; [exact Both|].
  unfold componentDidUpdate, refreshDue.
  destruct (negb (pluralForm props =? pluralForm prevProps)
            || negb (same_obj (selectedEntity props)
                              (selectedEntity prevProps))
            || (same_obj (selectedEntity props) (nextEntity props)
                && negb (String.eqb (activeTranslationString props)
                                    (activeTranslationString prevProps))))
           eqn:C; cbn [when].
  - split; [intros _; exact Both|]. intros N. elim N.
    rewrite !orb_true_iff, andb_true_iff, !negb_true_iff in C.
    rewrite Z.eqb_neq, String.eqb_neq in C. tauto.
  - split; [|reflexivity]. intros D. exfalso.
    rewrite !orb_false_iff, andb_false_iff, !negb_false_iff in C.
    rewrite Z.eqb_eq, String.eqb_eq in C.
    destruct C as [[Cp Cs] Cn].
    destruct D as [D | [D | [D1 D2]]]; [tauto | congruence |].
    destruct Cn as [Cn | Cn]; [congruence | tauto].
Qed.

(** C3.  A machinery search with a non-empty query dispatches one machinery
    request whose source is the query itself and whose entity key is
    [null]; with an empty query and an entity selected, the source is the
    entity's original string and the key is the entity's key. *)
Theorem searchMachinery_source (props : Props) (query : string) :
  (query <> "" ->
   searchMachinery props query
   = ([MachineryGet query (locale props) null], Ok tt))
  /\ (forall o,
         query = "" ->
         selectedEntity props = val o ->
         searchMachinery props query
         = ([MachineryGet (Entity.original (fields o)) (locale props)
                          (val (Entity.pk (fields o)))], Ok tt)).
Proof.
  unfold searchMachinery. rewrite truthy_num_string_length. split.
  - intros Q. destruct query; [now elim Q|].
    cbn [negb]. now rewrite andb_false_r.
  - intros o -> Hsel. now rewrite Hsel.
Qed.

(** C4.  When the entity parameter is absent (zero), or no entity is
    selected, or there is no locale, the helper fetch dispatches nothing and
    returns normally. *)
Theorem fetchHelpersData_silent (props : Props) :
  NavigationParams.entity (parameters props) = 0
  \/ absent (selectedEntity props)
  \/ absent (locale props) ->
  fetchHelpersData props = ([], Ok tt).
Proof. exact (@fetchHelpersData_skipped props). Qed.

(** C5.  Past the guard of the helper fetch, the history actions in its log
    are the request followed by the get exactly when the history slice's
    entity differs from the selected entity's key, or its plural form
    differs from the current one, or the selected entity is the next
    entity; otherwise the log holds no history action. *)
Theorem history_fetched_iff_stale
        (props : Props) (o : Obj Entity.t) (l : Locale) :
  NavigationParams.entity (parameters props) <> 0 ->
  selectedEntity props = val o ->
  locale props = val l ->
  (filter isHistoryFetch (dispatched (fetchHelpersData props))
   = [HistoryRequest (NavigationParams.entity (parameters props))
                     (pluralForm props);
      HistoryGet (NavigationParams.entity (parameters props))
                 (NavigationParams.locale (parameters props))
                 (pluralForm props)]
   <-> historyStale props (fields o))
  /\ (filter isHistoryFetch (dispatched (fetchHelpersData props)) = []
      <-> ~ historyStale props (fields o)).
Proof.
  intros Hent Hsel Hloc.
  rewrite (fetchHelpersData_ready _ Hent Hsel Hloc). cbn [dispatched fst].
  rewrite (@filter_parts isHistoryFetch props (fields o) true false false).
  2, 3, 4: classify_part.
  rewrite app_nil_r.
  destruct (historyStale_dec props (fields o)) as [St | Fr].
  - rewrite (historyPart_stale St). split; split; intros K;
      solve [assumption | reflexivity | discriminate | now elim K].
  - rewrite (historyPart_fresh Fr). split; split; intros K;
      solve [assumption | reflexivity | discriminate | now elim Fr].
Qed.

(** C6.  Past the guard of the helper fetch, the other-locales get is in
    the log exactly when the other-locales slice's entity differs from the
    selected entity's key; the machinery get is in the log exactly when
    the machinery slice's entity differs from that key, and then its source
    is [getOptimizedContent] of the entity's machinery source and format,
    with the locale and the entity's key. *)
Theorem otherlocales_machinery_fetched_iff_stale
        (props : Props) (o : Obj Entity.t) (l : Locale) :
  NavigationParams.entity (parameters props) <> 0 ->
  selectedEntity props = val o ->
  locale props = val l ->
  (filter isOtherlocalesFetch (dispatched (fetchHelpersData props))
   = [OtherlocalesGet (NavigationParams.entity (parameters props))
                      (NavigationParams.locale (parameters props))]
   <-> LocalesState.entity (otherlocales props)
       <> val (Entity.pk (fields o)))
  /\ (filter isOtherlocalesFetch (dispatched (fetchHelpersData props)) = []
      <-> LocalesState.entity (otherlocales props)
          = val (Entity.pk (fields o)))
  /\ (filter isMachineryFetch (dispatched (fetchHelpersData props))
      = [MachineryGet
           (getOptimizedContent (Entity.machinery_original (fields o))
                                (Entity.format (fields o)))
           (locale props)
           (val (Entity.pk (fields o)))]
      <-> MachineryState.entity (machinery props)
          <> val (Entity.pk (fields o)))
  /\ (filter isMachineryFetch (dispatched (fetchHelpersData props)) = []
      <-> MachineryState.entity (machinery props)
          = val (Entity.pk (fields o))).
Proof.
  intros Hent Hsel Hloc.
  rewrite (fetchHelpersData_ready _ Hent Hsel Hloc). cbn [dispatched fst].
  rewrite (@filter_parts isOtherlocalesFetch props (fields o)
                         false true false) by classify_part.
  rewrite (@filter_parts isMachineryFetch props (fields o)
                         false false true) by classify_part.
  cbn [app]. rewrite app_nil_r.
  unfold otherlocalesPart, machineryPart.
  destruct (num_eq (val (Entity.pk (fields o)))
                   (LocalesState.entity (otherlocales props))) eqn:EO;
    destruct (num_eq (val (Entity.pk (fields o)))
                     (MachineryState.entity (machinery props))) eqn:EM;
    cbn [negb];
    repeat match goal with
           | E : num_eq _ _ = true |- _ => apply num_eq_val in E
           | E : num_eq _ _ = false |- _ =>
               apply not_true_iff_false in E; rewrite num_eq_val in E
           end;
    repeat split; intros K;
    solve [assumption | reflexivity | discriminate | contradiction].
Qed.

(** C7.  Going to the next or the previous entity, navigating to a path
    and changing a translation's status each dispatch one action only: the
    unsaved-changes check, given the current unsaved-changes state and a
    callback.  The navigation or status update is what the callback
    dispatches when it is run; the method's own log holds no such update. *)
Theorem updates_go_through_unsavedchanges_check
        (props : Props) (path : string) (translationId : Z)
        (change : ChangeOperation) :
  (exists callback,
      goToNextEntity props
      = ([UnsavedchangesCheck (unsavedchanges props) callback], Ok tt)
      /\ callback tt
         = match nextEntity props with
           | val next =>
               ([NavigationUpdateEntity
                   (router props)
                   (Number_toString (Entity.pk (fields next)))], Ok tt)
           | _ => ([], Throw TypeError)
           end)
  /\ (exists callback,
         goToPreviousEntity props
         = ([UnsavedchangesCheck (unsavedchanges props) callback], Ok tt)
         /\ callback tt
            = match previousEntity props with
              | val previous =>
                  ([NavigationUpdateEntity
                      (router props)
                      (Number_toString (Entity.pk (fields previous)))],
                   Ok tt)
              | _ => ([], Throw TypeError)
              end)
  /\ (exists callback,
         navigateToPath props path
         = ([UnsavedchangesCheck (unsavedchanges props) callback], Ok tt)
         /\ callback tt = ([RouterPush path], Ok tt))
  /\ (exists callback,
         updateTranslationStatus props translationId change
         = ([UnsavedchangesCheck (unsavedchanges props) callback], Ok tt)
         /\ callback tt
            = ([HistoryUpdateStatus
                  change (selectedEntity props) (locale props)
                  (NavigationParams.resource (parameters props))
                  (pluralForm props) translationId
                  (nextEntity props) (router props)], Ok tt))
  /\ existsb isGuardedUpdate
             (dispatched (goToNextEntity props)
                ++ dispatched (goToPreviousEntity props)
                ++ dispatched (navigateToPath props path)
                ++ dispatched (updateTranslationStatus
                                 props translationId change))
     = false.
Proof.
  repeat split.
  - eexists; split; [reflexivity|].
    cbn beta. now destruct (nextEntity props).
  - eexists; split; [reflexivity|].
    cbn beta. now destruct (previousEntity props).
  - eexists; split; reflexivity.
  - eexists; split; reflexivity.
Qed.

(** C8.  With an entity selected, the refresh decides on the record at
    index 0 of the entity's translations when the plural form is -1, and on
    the record at index [pluralForm] when the plural form is not
    negative. *)
Theorem updateFailedChecks_reads_active_plural
        (props : Props) (o : Obj Entity.t) :
  selectedEntity props = val o ->
  (pluralForm props = -1 ->
   updateFailedChecks props
   = ([checksAction
         (of_option (nth_error (Entity.translation (fields o)) 0))],
      Ok tt))
  /\ (0 <= pluralForm props ->
      updateFailedChecks props
      = ([checksAction
            (of_option (nth_error (Entity.translation (fields o))
                                  (Z.to_nat (pluralForm props))))],
         Ok tt)).
Proof.
  intros Hsel. rewrite (updateFailedChecks_selected _ Hsel).
  unfold activeTranslation. split.
  - intros ->. reflexivity.
  - intros Hp. destruct (Z.eqb_spec (pluralForm props) (-1)); [lia|].
    now rewrite array_get_nth_error.
Qed.

(** C9.  With no entity selected, the refresh dispatches nothing, neither
    a publication nor a reset, and returns. *)
Theorem updateFailedChecks_without_selection (props : Props) :
  absent (selectedEntity props) ->
  updateFailedChecks props = ([], Ok tt).
Proof. exact (@updateFailedChecks_unselected props). Qed.

(** C10.  A machinery search with an empty query and no entity selected
    still dispatches a machinery request, with the empty string as source
    and [null] as entity key. *)
Theorem searchMachinery_empty_without_selection (props : Props) :
  absent (selectedEntity props) ->
  searchMachinery props ""
  = ([MachineryGet "" (locale props) null], Ok tt).
Proof.
  intros [E | E]; unfold searchMachinery; now rewrite E.
Qed.

End Properties.

(** ** The component on the sample data *)

Section Checks.

Import Samples.
#[local] Existing Instance collaborators.

Example number_toString_sample :
  Number_toString 43 = "43" /\ Number_toString (-7) = "-7"
  /\ Number_toString 0 = "0".
Proof. repeat split. Qed.

(** Mounting on [entity1]: its first record is fuzzy with one error, and no
    helper data is there yet. *)
Example mount_sample :
  componentDidMount props
  = ([EditorUpdateFailedChecks
        (FailedChecks.mk ["Error1"] [] [] [] []) "stored";
      HistoryRequest 42 (-1);
      HistoryGet 42 "kg" (-1);
      OtherlocalesGet 42 "kg";
      MachineryGet "le test" (val "kg") (val 42)],
     Ok tt).
Proof. reflexivity. Qed.

(** A plural-form change onto a fuzzy record with one error and no
    warning publishes one error and no warning. *)
Example plural_change_publishes_sample :
  exists failedChecks rest,
    dispatched (componentDidUpdate (withPluralForm 0 props) props)
    = EditorUpdateFailedChecks failedChecks "stored" :: rest
    /\ List.length (FailedChecks.clErrors failedChecks) = 1%nat
    /\ List.length (FailedChecks.clWarnings failedChecks) = 0%nat.
Proof. do 2 eexists. split; [reflexivity|]. split; reflexivity. Qed.

(** A record with an error that is neither approved nor fuzzy resets. *)
Example draft_resets_sample :
  updateFailedChecks (withPluralForm 1 props)
  = ([EditorResetFailedChecks], Ok tt).
Proof. reflexivity. Qed.

(** An update in which only the helper slices and a flag changed. *)
Example unrelated_update_sample :
  componentDidUpdate (withFreshHelpers props) props = ([], Ok tt).
Proof. reflexivity. Qed.

(** Once the slices record the entity, re-running the fetch is silent. *)
Example fresh_helpers_sample :
  fetchHelpersData (withFreshHelpers props) = ([], Ok tt).
Proof. reflexivity. Qed.

(** With unsaved changes pending, going to the next entity dispatches the
    check alone; the navigation waits in the callback. *)
Example goToNextEntity_sample :
  exists callback,
    goToNextEntity props = ([UnsavedchangesCheck true callback], Ok tt)
    /\ callback tt
       = ([NavigationUpdateEntity "/kg/firefox/all-resources/" "43"], Ok tt).
Proof. eexists. split; reflexivity. Qed.

End Checks.

(** ** The claims at the sample data *)

Section SampleRuns.

#[local] Existing Instance Samples.collaborators.

(** C1, as it is worded: without a selected entity no translation record
    exists, so the rule asks for a reset, and the refresh dispatches
    nothing. *)
Lemma refresh_without_selection_does_not_reset :
  ~ refreshRuleUnconditional Samples.noSelection.
Proof.
  intros [_ R].
  assert (K : dispatched (updateFailedChecks Samples.noSelection)
              = [EditorResetFailedChecks]).
  { apply R. intros o t Hsel. discriminate Hsel. }
  cbv in K. discriminate K.
Qed.

Lemma updateFailedChecks_publishes_or_resets_witness :
  selectedEntity Samples.props = val Samples.entity1
  /\ activeTranslation Samples.props (fields Samples.entity1)
     = val Samples.fuzzyOneError
  /\ publishable Samples.fuzzyOneError
  /\ updateFailedChecks Samples.props
     = ([storedChecks Samples.fuzzyOneError], Ok tt).
Proof.
  assert (P : publishable Samples.fuzzyOneError).
  { split; [right; reflexivity | left; discriminate]. }
  split; [reflexivity|]. split; [reflexivity|]. split; [exact P|].
  exact (proj1 (@updateFailedChecks_publishes_or_resets
                  Samples.collaborators Samples.props Samples.entity1
                  eq_refl)
               Samples.fuzzyOneError eq_refl P).
Defined.

Lemma fetchHelpersData_silent_witness :
  absent (selectedEntity Samples.noSelection)
  /\ fetchHelpersData Samples.noSelection = ([], Ok tt).
Proof.
  assert (A : absent (selectedEntity Samples.noSelection)) by (left; reflexivity).
  split; [exact A|].
  apply (@fetchHelpersData_silent Samples.collaborators Samples.noSelection).
  right; left; exact A.
Defined.

Lemma history_fetched_iff_stale_witness :
  historyStale Samples.props (fields Samples.entity1)
  /\ filter isHistoryFetch (dispatched (fetchHelpersData Samples.props))
     = [HistoryRequest 42 (-1); HistoryGet 42 "kg" (-1)].
Proof.
  assert (St : historyStale Samples.props (fields Samples.entity1))
    by (left; discriminate).
  split; [exact St|].
  apply (proj1 (@history_fetched_iff_stale
                  Samples.collaborators Samples.props Samples.entity1 "kg"
                  ltac:(discriminate) eq_refl eq_refl)).
  exact St.
Defined.

Lemma otherlocales_machinery_fetched_iff_stale_witness :
  filter isOtherlocalesFetch (dispatched (fetchHelpersData Samples.props))
  = [OtherlocalesGet 42 "kg"]
  /\ filter isMachineryFetch (dispatched (fetchHelpersData Samples.props))
     = [MachineryGet "le test" (val "kg") (val 42)].
Proof.
  pose proof (@otherlocales_machinery_fetched_iff_stale
                Samples.collaborators Samples.props Samples.entity1 "kg"
                ltac:(discriminate) eq_refl eq_refl) as [O [_ [Ma _]]].
  split; [apply O | apply Ma]; discriminate.
Defined.

Lemma updateFailedChecks_reads_active_plural_witness :
  updateFailedChecks Samples.props
  = ([checksAction (val Samples.fuzzyOneError)], Ok tt)
  /\ updateFailedChecks (Samples.withPluralForm 1 Samples.props)
     = ([checksAction (val Samples.draftOneError)], Ok tt).
Proof.
  split.
  - exact (proj1 (@updateFailedChecks_reads_active_plural
                    Samples.collaborators Samples.props Samples.entity1
                    eq_refl) eq_refl).
  - apply (proj2 (@updateFailedChecks_reads_active_plural
                    Samples.collaborators
                    (Samples.withPluralForm 1 Samples.props) Samples.entity1
                    eq_refl)).
    cbn. lia.
Defined.

Lemma updateFailedChecks_without_selection_witness :
  absent (selectedEntity Samples.noSelection)
  /\ updateFailedChecks Samples.noSelection = ([], Ok tt).
Proof.
  assert (A : absent (selectedEntity Samples.noSelection)) by (left; reflexivity).
  split; [exact A|].
  exact (@updateFailedChecks_without_selection
           Samples.collaborators Samples.noSelection A).
Defined.

Lemma searchMachinery_empty_without_selection_witness :
  absent (selectedEntity Samples.noSelection)
  /\ searchMachinery Samples.noSelection ""
     = ([MachineryGet "" (val "kg") null], Ok tt).
Proof.
  assert (A : absent (selectedEntity Samples.noSelection)) by (left; reflexivity).
  split; [exact A|].
  exact (@searchMachinery_empty_without_selection
           Samples.collaborators Samples.noSelection A).
Defined.

Lemma refresh_on_mount_and_change_witness :
  refreshDue (Samples.withPluralForm 0 Samples.props) Samples.props
  /\ componentDidUpdate (Samples.withPluralForm 0 Samples.props) Samples.props
     = ([EditorUpdateFailedChecks
           (FailedChecks.mk ["Error1"] [] [] [] []) "stored";
         HistoryRequest 42 0;
         HistoryGet 42 "kg" 0;
         OtherlocalesGet 42 "kg";
         MachineryGet "le test" (val "kg") (val 42)],
        Ok tt)
  /\ ~ refreshDue (Samples.withFreshHelpers Samples.props) Samples.props
  /\ componentDidUpdate (Samples.withFreshHelpers Samples.props) Samples.props
     = ([], Ok tt).
Proof.
  assert (D : refreshDue (Samples.withPluralForm 0 Samples.props)
                         Samples.props) by (left; discriminate).
  assert (N : ~ refreshDue (Samples.withFreshHelpers Samples.props)
                           Samples.props).
  { intros [K | [K | [K _]]]; [now apply K | discriminate K | discriminate K]. }
  split; [exact D|]. split; [|split; [exact N|]].
  - exact (proj1 (proj2 (@refresh_on_mount_and_change
                           Samples.collaborators
                           (Samples.withPluralForm 0 Samples.props)
                           Samples.props)) D).
  - exact (proj2 (proj2 (@refresh_on_mount_and_change
                           Samples.collaborators
                           (Samples.withFreshHelpers Samples.props)
                           Samples.props)) N).
Defined.

Lemma searchMachinery_source_witness :
  searchMachinery Samples.props "plus"
  = ([MachineryGet "plus" (val "kg") null], Ok tt)
  /\ searchMachinery Samples.props ""
     = ([MachineryGet "le test" (val "kg") (val 42)], Ok tt).
Proof.
  split.
  - apply (proj1 (@searchMachinery_source
                    Samples.collaborators Samples.props "plus")).
    discriminate.
  - exact (proj2 (@searchMachinery_source Samples.collaborators Samples.props "")
                 Samples.entity1 eq_refl eq_refl).
Defined.

End SampleRuns.

(** ** Further properties of the component *)

Section MoreProperties.

Context `{Collaborators}.

Lemma same_obj_refl (A : Type) (x : Nullable (Obj A)) : same_obj x x = true.
Proof.
  destruct x as [| |o]; cbn; try reflexivity. apply Pos.eqb_refl.
Qed.

(** The two routines of a refresh, run one after the other. *)
Lemma refresh_sequence (props : Props) :
  (updateFailedChecks props ;; fetchHelpersData props)
  = (dispatched (updateFailedChecks props)
       ++ dispatched (fetchHelpersData props), Ok tt).
Proof.
  pose proof (updateFailedChecks_outcome props) as U.
  pose proof (fetchHelpersData_outcome props) as F.
  destruct (updateFailedChecks props) as [lu ru].
  destruct (fetchHelpersData props) as [lf rf].
  cbn in U, F. subst. reflexivity.
Qed.

(** Either the guard of [fetchHelpersData] returns, or the three parts are
    dispatched. *)
Lemma fetchHelpersData_cases (props : Props) :
  fetchHelpersData props = ret tt
  \/ exists o l,
      NavigationParams.entity (parameters props) <> 0
      /\ selectedEntity props = val o
      /\ locale props = val l
      /\ fetchHelpersData props
         = (historyPart props (fields o)
              ++ otherlocalesPart props (fields o)
              ++ machineryPart props (fields o), Ok tt).
Proof.
  destruct (Z.eq_dec (NavigationParams.entity (parameters props)) 0) as [E|E].
  { left. apply fetchHelpersData_skipped. auto. }
  destruct (selectedEntity props) as [| |o] eqn:Hsel;
    try solve [left; apply fetchHelpersData_skipped;
               right; left; rewrite Hsel; unfold absent; auto].
  destruct (locale props) as [| |l] eqn:Hloc;
    try solve [left; apply fetchHelpersData_skipped;
               right; right; rewrite Hloc; unfold absent; auto].
  right. exists o, l. repeat split; auto.
  exact (fetchHelpersData_ready _ E Hsel Hloc).
Qed.



(** X1.  Mounting and updating never throw, whatever the props: each read
    of a field of [selectedEntity] comes after a test that it is there. *)
Theorem lifecycle_never_throws (props prevProps : Props) :
  outcome (componentDidMount props) = Ok tt
  /\ outcome (componentDidUpdate props prevProps) = Ok tt.
Proof.
  unfold componentDidMount, componentDidUpdate, when.
  rewrite refresh_sequence. split; [reflexivity|].
  now destruct (_ || _ || _).
Qed.

(** X2.  An update whose previous props are the current props dispatches
    nothing: [===] holds between a value and itself, also for an entity
    that is the next entity. *)
Theorem componentDidUpdate_same_props (props : Props) :
  componentDidUpdate props props = ([], Ok tt).
Proof.
  unfold componentDidUpdate.
  rewrite Z.eqb_refl, same_obj_refl, String.eqb_refl.
  cbn [negb orb]. now rewrite andb_false_r.
Qed.

(** X3.  Whatever the props, [fetchHelpersData] dispatches helper fetches
    only, at most four of them, and the history request is in the log
    exactly when the history get for the same entity and plural form is. *)
Theorem fetchHelpersData_only_fetches (props : Props) :
  forallb isHelperFetch (dispatched (fetchHelpersData props)) = true
  /\ (List.length (dispatched (fetchHelpersData props)) <= 4)%nat
  /\ (forall entity pluralForm,
         In (HistoryRequest entity pluralForm)
            (dispatched (fetchHelpersData props))
         <-> In (HistoryGet entity
                            (NavigationParams.locale (parameters props))
                            pluralForm)
                (dispatched (fetchHelpersData props))).
Proof.
  destruct (fetchHelpersData_cases props) as [-> | (o & l & _ & _ & _ & ->)].
  { cbn. repeat split; try lia; intros []. }
  unfold historyPart, otherlocalesPart, machineryPart, dispatched.
  cbn [fst].
  destruct (_ || _ || _); destruct (negb _); destruct (negb _);
    (split; [reflexivity|]; split; [cbn; lia|]);
    intros e p; cbn; split; intros K;
    repeat (destruct K as [K | K]; try discriminate K; try contradiction);
    try discriminate K; try contradiction;
    inversion K; subst; auto.
Qed.

(** X4.  Past its guard, [fetchHelpersData] dispatches nothing exactly when
    all three slices hold the selected entity's key, the history slice holds
    the current plural form, and the selected entity is not the next
    entity. *)
Theorem fetchHelpersData_silent_iff_fresh
        (props : Props) (o : Obj Entity.t) (l : Locale) :
  NavigationParams.entity (parameters props) <> 0 ->
  selectedEntity props = val o ->
  locale props = val l ->
  dispatched (fetchHelpersData props) = [] <-> helpersFresh props (fields o).
Proof.
  intros Hent Hsel Hloc.
  rewrite (fetchHelpersData_ready _ Hent Hsel Hloc). cbn [dispatched fst].
  unfold historyPart, otherlocalesPart, machineryPart, helpersFresh.
  destruct (num_eq (val (Entity.pk (fields o)))
                   (HistoryState.entity (history props))) eqn:E1;
    destruct (num_eq (val (pluralForm props))
                     (HistoryState.pluralForm (history props))) eqn:E2;
    destruct (same_obj (selectedEntity props) (nextEntity props)) eqn:E3;
    destruct (num_eq (val (Entity.pk (fields o)))
                     (LocalesState.entity (otherlocales props))) eqn:E4;
    destruct (num_eq (val (Entity.pk (fields o)))
                     (MachineryState.entity (machinery props))) eqn:E5;
    cbn [negb orb app];
    repeat match goal with
           | E : num_eq _ _ = true |- _ => apply num_eq_val in E
           | E : num_eq _ _ = false |- _ =>
               apply not_true_iff_false in E; rewrite num_eq_val in E
           end;
    split; intros K;
    solve [ discriminate K
          | repeat split; assumption
          | destruct K as (K1 & K2 & K3 & K4 & K5);
            solve [contradiction | discriminate] ].
Qed.

(** X5.  Whatever the props, [updateFailedChecks] dispatches at most one
    action, and it is either the reset or a publication tagged ["stored"]
    that carries at least one error or warning and leaves the three other
    lists empty. *)
Theorem updateFailedChecks_reset_or_stored (props : Props) :
  (List.length (dispatched (updateFailedChecks props)) <= 1)%nat
  /\ Forall
       (fun a =>
          a = EditorResetFailedChecks
          \/ exists failedChecks,
              a = EditorUpdateFailedChecks failedChecks "stored"
              /\ (FailedChecks.clErrors failedChecks <> []
                  \/ FailedChecks.clWarnings failedChecks <> [])
              /\ FailedChecks.pErrors failedChecks = []
              /\ FailedChecks.pndbWarnings failedChecks = []
              /\ FailedChecks.ttWarnings failedChecks = [])
       (dispatched (updateFailedChecks props)).
Proof.
  destruct (selectedEntity props) as [| |o] eqn:Hsel.
  1, 2: rewrite updateFailedChecks_unselected
    by (rewrite Hsel; unfold absent; auto);
    cbn; split; [lia | constructor].
  rewrite (updateFailedChecks_selected _ Hsel). cbn. split; [lia|].
  constructor; [|constructor].
  destruct (activeTranslation props (fields o)) as [| |t]; cbn; auto.
  destruct t as [a f es ws]; cbn.
  destruct es, ws, a, f; cbn; auto; right; eexists;
    (split; [reflexivity|]); cbn;
    (split; [(left + right); discriminate | auto]).
Qed.

(** X6.  With an entity selected and a plural form that names no record of
    it (below -1, at or past the end of the translations, or -1 with no
    translation at all), [updateFailedChecks] dispatches the reset. *)
Theorem updateFailedChecks_out_of_range (props : Props) (o : Obj Entity.t) :
  selectedEntity props = val o ->
  pluralForm props < -1
  \/ array_length (Entity.translation (fields o)) <= pluralForm props
  \/ (pluralForm props = -1 /\ Entity.translation (fields o) = []) ->
  updateFailedChecks props = ([EditorResetFailedChecks], Ok tt).
Proof.
  intros Hsel Hp. rewrite (updateFailedChecks_selected _ Hsel).
  unfold activeTranslation, array_length in *.
  assert (array_get (Entity.translation (fields o))
                    (if pluralForm props =? -1 then 0 else pluralForm props)
          = undefined) as ->; [|reflexivity].
  destruct Hp as [Hp | [Hp | [Hp Ht]]].
  - destruct (Z.eqb_spec (pluralForm props) (-1)); [lia|].
    unfold array_get. destruct (Z.ltb_spec (pluralForm props) 0); [easy | lia].
  - destruct (Z.eqb_spec (pluralForm props) (-1)); [lia|].
    rewrite array_get_nth_error by lia.
    now rewrite (proj2 (nth_error_None _ _)) by lia.
  - rewrite Hp, Ht. reflexivity.
Qed.

(** X7.  What [updateFailedChecks] dispatches is decided by the selected
    entity's translations and the plural form alone: two props that agree
    on these dispatch the same, whatever else differs (the entity's
    identity and key included). *)
Theorem updateFailedChecks_depends_on_translations
        (props props' : Props) (o o' : Obj Entity.t) :
  selectedEntity props = val o ->
  selectedEntity props' = val o' ->
  Entity.translation (fields o) = Entity.translation (fields o') ->
  pluralForm props = pluralForm props' ->
  updateFailedChecks props = updateFailedChecks props'.
Proof.
  intros Hsel Hsel' Ht Hp.
  rewrite (updateFailedChecks_selected _ Hsel),
          (updateFailedChecks_selected _ Hsel').
  unfold activeTranslation. now rewrite Ht, Hp.
Qed.

(** X8.  Whatever the props and the query, [searchMachinery] returns after
    dispatching one machinery request for the current locale.  Either its
    key is [null] and its source is the query, or the query is empty, an
    entity is selected, and the request carries that entity's original
    string and key. *)
Theorem searchMachinery_one_request (props : Props) (query : string) :
  exists source pk,
    searchMachinery props query
    = ([MachineryGet source (locale props) pk], Ok tt)
    /\ ((pk = null /\ source = query)
        \/ exists o,
            query = ""
            /\ selectedEntity props = val o
            /\ source = Entity.original (fields o)
            /\ pk = val (Entity.pk (fields o))).
Proof.
  unfold searchMachinery. rewrite truthy_num_string_length.
  destruct (selectedEntity props) as [| |o] eqn:Hsel; cbn;
    try (do 2 eexists; split; [reflexivity | left; split; reflexivity]).
  destruct query; cbn; do 2 eexists; (split; [reflexivity|]).
  - right. exists o. repeat split.
  - left. split; reflexivity.
Qed.

(** X9.  Deleting a translation and commenting on one address it by the
    entity, locale and plural form of the history get: when
    [fetchHelpersData] dispatches that get, both handlers dispatch one
    action with the same three values, without the unsaved-changes check. *)
Theorem history_edits_follow_fetch
        (props : Props) (entity : Z) (loc : string) (plural : Z)
        (translationId : Z) (comment : string) :
  In (HistoryGet entity loc plural) (dispatched (fetchHelpersData props)) ->
  deleteTranslation props translationId
  = ([HistoryDeleteTranslation entity loc plural translationId], Ok tt)
  /\ addComment props comment translationId
     = ([HistoryAddComment entity loc plural translationId comment], Ok tt).
Proof.
  destruct (fetchHelpersData_cases props) as [-> | (o & l & _ & _ & _ & ->)].
  { intros []. }
  unfold historyPart, otherlocalesPart, machineryPart, dispatched.
  cbn [fst].
  destruct (_ || _ || _); destruct (negb _); destruct (negb _);
    cbn; intros K;
    repeat (destruct K as [K | K]; try discriminate K; try contradiction);
    try discriminate K; try contradiction;
    inversion K; subst; split; reflexivity.
Qed.


(** X11.  [render] neither dispatches nor throws, and what it returns is
    [null] exactly when there is no locale, an entity being selected or
    not. *)
Theorem render_null_iff_no_locale (props : Props) :
  exists view,
    render props = ([], Ok view)
    /\ (view = null <-> absent (locale props)).
Proof.
  unfold render, absent.
  destruct (locale props) as [| |l]; cbn.
  1, 2: eexists; split; [reflexivity | split; auto].
  destruct (selectedEntity props) as [| |o]; cbn;
    eexists; (split; [reflexivity|]);
    (split; [discriminate | intros [K | K]; discriminate K]).
Qed.

(** X12.  With a locale but no entity selected, [render] returns the bare
    [entity-details] section: no child component is mounted and no handler
    is handed out. *)
Theorem render_bare_without_selection (props : Props) (l : Locale) :
  locale props = val l ->
  absent (selectedEntity props) ->
  exists root,
    render props = ([], Ok (val root))
    /\ elementTypes root = ["section"]
    /\ handlers root = [].
Proof.
  intros Hloc [Hsel | Hsel]; unfold render; rewrite Hloc, Hsel; cbn;
    eexists; repeat split.
Qed.

(** X13.  With a locale and an entity selected, [render] mounts one editor:
    the Fluent editor when the entity's format is ["ftl"], the generic
    editor for any other format, never both. *)
Theorem render_mounts_one_editor
        (props : Props) (l : Locale) (o : Obj Entity.t) :
  locale props = val l ->
  selectedEntity props = val o ->
  exists root,
    render props = ([], Ok (val root))
    /\ (Entity.format (fields o) = "ftl" ->
        count_occ string_dec (elementTypes root) "fluenteditor.Editor" = 1%nat
        /\ count_occ string_dec (elementTypes root) "genericeditor.Editor"
           = 0%nat)
    /\ (Entity.format (fields o) <> "ftl" ->
        count_occ string_dec (elementTypes root) "fluenteditor.Editor" = 0%nat
        /\ count_occ string_dec (elementTypes root) "genericeditor.Editor"
           = 1%nat).
Proof.
  intros Hloc Hsel. unfold render. rewrite Hloc, Hsel.
  cbn [truthy negb deref bind ret app].
  eexists. split; [reflexivity|].
  destruct (String.eqb_spec (Entity.format (fields o)) "ftl") as [E | E].
  - split; [intros _ | intros N; now elim N]. split; reflexivity.
  - split; [intros K; now elim E | intros _]. split; reflexivity.
Qed.

End MoreProperties.

(** ** The further properties at the sample data *)

Section MoreSampleRuns.

#[local] Existing Instance Samples.collaborators.

Lemma fetchHelpersData_silent_iff_fresh_witness :
  helpersFresh (Samples.withFreshHelpers Samples.props)
               (fields Samples.entity1)
  /\ dispatched (fetchHelpersData (Samples.withFreshHelpers Samples.props))
     = [].
Proof.
  assert (F : helpersFresh (Samples.withFreshHelpers Samples.props)
                           (fields Samples.entity1))
    by (repeat split).
  split; [exact F|].
  apply (proj2 (@fetchHelpersData_silent_iff_fresh
                  Samples.collaborators
                  (Samples.withFreshHelpers Samples.props)
                  Samples.entity1 "kg"
                  ltac:(discriminate) eq_refl eq_refl)).
  exact F.
Defined.

Lemma updateFailedChecks_out_of_range_witness :
  array_length (Entity.translation (fields Samples.entity1)) <= 2
  /\ updateFailedChecks (Samples.withPluralForm 2 Samples.props)
     = ([EditorResetFailedChecks], Ok tt).
Proof.
  assert (B : array_length (Entity.translation (fields Samples.entity1)) <= 2)
    by (cbn; lia).
  split; [exact B|].
  apply (@updateFailedChecks_out_of_range
           Samples.collaborators
           (Samples.withPluralForm 2 Samples.props) Samples.entity1 eq_refl).
  right; left; exact B.
Defined.

Lemma updateFailedChecks_depends_on_translations_witness :
  updateFailedChecks Samples.props
  = updateFailedChecks
      (Samples.withSelectedEntity (val MoreSamples.renamedEntity)
                                  (Samples.withFreshHelpers Samples.props)).
Proof.
  exact (@updateFailedChecks_depends_on_translations
           Samples.collaborators
           Samples.props
           (Samples.withSelectedEntity (val MoreSamples.renamedEntity)
                                       (Samples.withFreshHelpers Samples.props))
           Samples.entity1 MoreSamples.renamedEntity
           eq_refl eq_refl eq_refl eq_refl).
Defined.

Lemma history_edits_follow_fetch_witness :
  In (HistoryGet 42 "kg" (-1)) (dispatched (fetchHelpersData Samples.props))
  /\ deleteTranslation Samples.props 7
     = ([HistoryDeleteTranslation 42 "kg" (-1) 7], Ok tt)
  /\ addComment Samples.props "bien" 7
     = ([HistoryAddComment 42 "kg" (-1) 7 "bien"], Ok tt).
Proof.
  assert (I : In (HistoryGet 42 "kg" (-1))
                 (dispatched (fetchHelpersData Samples.props)))
    by (right; left; reflexivity).
  split; [exact I|].
  exact (@history_edits_follow_fetch
           Samples.collaborators Samples.props 42 "kg" (-1) 7 "bien" I).
Defined.


Lemma render_bare_without_selection_witness :
  exists root,
    render Samples.noSelection = ([], Ok (val root))
    /\ elementTypes root = ["section"]
    /\ handlers root = [].
Proof.
  apply (@render_bare_without_selection
           Samples.collaborators Samples.noSelection "kg" eq_refl).
  left; reflexivity.
Defined.

Lemma render_mounts_one_editor_witness :
  (exists root,
      render Samples.props = ([], Ok (val root))
      /\ count_occ string_dec (elementTypes root) "genericeditor.Editor"
         = 1%nat)
  /\ (exists root,
         render (Samples.withSelectedEntity (val MoreSamples.fluentEntity)
                                            Samples.props)
         = ([], Ok (val root))
         /\ count_occ string_dec (elementTypes root) "fluenteditor.Editor"
            = 1%nat).
Proof.
  split.
  - destruct (@render_mounts_one_editor
                Samples.collaborators Samples.props "kg" Samples.entity1
                eq_refl eq_refl) as (root & R & _ & G).
    exists root. split; [exact R|]. apply G. discriminate.
  - destruct (@render_mounts_one_editor
                Samples.collaborators
                (Samples.withSelectedEntity (val MoreSamples.fluentEntity)
                                            Samples.props)
                "kg" MoreSamples.fluentEntity
                eq_refl eq_refl) as (root & R & F & _).
    exists root. split; [exact R|]. apply F. reflexivity.
Defined.

End MoreSampleRuns.
